(** * The Infura proxy handler of [src/lambda/index.js]

    A shallow embedding of the AWS Lambda handler: JavaScript values as an
    inductive type, object literals as ordered property lists, identifier
    references resolved against an explicit lexical scope, and the effects
    of one invocation (the outbound [fetch], [console.debug]) threaded
    through a small state-and-exception monad. The JavaScript runtime
    ([process.env], the global object, [fetch], [JSON]) is a record the
    handler is parametrised by. *)

From stdpp Require Import gmap strings list.
From Stdlib Require Import ZArith Ascii DecimalString DecimalPos DecimalFacts.

Set Warnings "-register-all".

Local Open Scope string_scope.
Local Open Scope list_scope.
Local Open Scope Z_scope.

(** ** Values *)

(** An error object: its [name] and [message]. *)
Record Error := mkError { error_name : string; error_message : string }.

Definition TypeError (msg : string) : Error := mkError "TypeError" msg.
Definition ReferenceError (msg : string) : Error := mkError "ReferenceError" msg.
Definition SyntaxError (msg : string) : Error := mkError "SyntaxError" msg.

(** Completion of an evaluation: a value, or a thrown error. For an
    awaited promise: fulfilled, or rejected. *)
Inductive completion (A : Type) : Type :=
| Normal (a : A)
| Throw (e : Error).
Arguments Normal {A} a.
Arguments Throw {A} e.

(** What [fetch] resolves with: the status line, and the outcome of reading
    the body as text. *)
Record Response := mkResponse {
  status : Z;
  statusText : string;
  text : completion string;
}.

(** [Response.ok]: the status is in the range 200-299. *)
Definition ok (r : Response) : bool := (200 <=? status r) && (status r <=? 299).

(** JavaScript values. Numbers are the integers and the two infinities:
    the handler only handles status codes and never computes with a
    number. Property lists keep insertion order. *)
Inductive value : Type :=
| VUndefined
| VNull
| VBool (b : bool)
| VNumber (n : Z)
| VInfinity (negative : bool)
| VString (s : string)
| VArray (elems : list value)
| VObject (props : list (string * value))
| VError (e : Error)
| VResponse (r : Response)
| VFunction (name : string).

(** Own property lookup in a property list. *)
Fixpoint lookup_prop (k : string) (ps : list (string * value)) : option value :=
  match ps with
  | [] => None
  | (k', v) :: ps' => if String.eqb k k' then Some v else lookup_prop k ps'
  end.

(** Define a property: an existing key keeps its place and takes the new
    value, a new key goes last. *)
Fixpoint set_prop (k : string) (v : value) (ps : list (string * value))
  : list (string * value) :=
  match ps with
  | [] => [(k, v)]
  | (k', v') :: ps' =>
      if String.eqb k k' then (k, v) :: ps' else (k', v') :: set_prop k v ps'
  end.

(** Spread [...src] inside an object literal whose properties so far are
    [ps]: the own properties of [src] are copied in order. Spreading
    [undefined] or [null] copies nothing. *)
Definition spread (src : value) (ps : list (string * value))
  : list (string * value) :=
  match src with
  | VObject qs => fold_left (fun acc kv => set_prop (fst kv) (snd kv) acc) qs ps
  | _ => ps
  end.

(** Property read [v.k], for the keys the handler reads. *)
Definition Get (v : value) (k : string) : completion value :=
  match v with
  | VUndefined =>
      Throw (TypeError ("Cannot read properties of undefined (reading '" +:+ k +:+ "')"))
  | VNull =>
      Throw (TypeError ("Cannot read properties of null (reading '" +:+ k +:+ "')"))
  | VObject ps => Normal (default VUndefined (lookup_prop k ps))
  | VError e =>
      if String.eqb k "message" then Normal (VString (error_message e))
      else if String.eqb k "name" then Normal (VString (error_name e))
      else Normal VUndefined
  | VResponse r =>
      if String.eqb k "ok" then Normal (VBool (ok r))
      else if String.eqb k "status" then Normal (VNumber (status r))
      else if String.eqb k "statusText" then Normal (VString (statusText r))
      else Normal VUndefined
  | _ => Normal VUndefined
  end.

(** [a === b] where one side is a primitive. *)
Definition IsStrictlyEqual (a b : value) : bool :=
  match a, b with
  | VUndefined, VUndefined => true
  | VNull, VNull => true
  | VBool x, VBool y => Bool.eqb x y
  | VNumber x, VNumber y => Z.eqb x y
  | VInfinity x, VInfinity y => Bool.eqb x y
  | VString x, VString y => String.eqb x y
  | _, _ => false
  end.

Definition ToBoolean (v : value) : bool :=
  match v with
  | VUndefined | VNull => false
  | VBool b => b
  | VNumber n => negb (Z.eqb n 0)
  | VString s => negb (String.eqb s "")
  | _ => true
  end.

(** [a ?? b] *)
Definition nullish (a b : value) : value :=
  match a with
  | VUndefined | VNull => b
  | _ => a
  end.

(** ** The runtime *)

Record Runtime := mkRuntime {
  (** [process.env] *)
  process_env : gmap string string;
  (** the properties of the global object, where an identifier bound in no
      enclosing scope is looked up *)
  globalThis : gmap string value;
  (** what [await fetch(input, init)] completes with *)
  fetch : value -> value -> completion Response;
  (** [JSON.stringify] and [JSON.parse] *)
  JSON_stringify : value -> value;
  JSON_parse : string -> completion value;
}.

(** [process.env.NAME]: a string, or [undefined] when the variable is unset. *)
Definition env_var (rt : Runtime) (name : string) : value :=
  match process_env rt !! name with
  | Some s => VString s
  | None => VUndefined
  end.

(** ** Effects *)

Inductive effect : Type :=
| Fetch (input init : value)
| ConsoleDebug (v : value).

(** A computation reads the log of effects so far and returns a completion
    and the extended log. *)
Definition M (A : Type) : Type := list effect -> completion A * list effect.

Definition ret {A} (a : A) : M A := fun t => (Normal a, t).
Definition throw {A} (e : Error) : M A := fun t => (Throw e, t).
Definition lift {A} (c : completion A) : M A := fun t => (c, t).
Definition emit (e : effect) : M unit := fun t => (Normal tt, t ++ [e]).

Definition bind {A B} (m : M A) (k : A -> M B) : M B :=
  fun t => match m t with
           | (Normal a, t') => k a t'
           | (Throw e, t') => (Throw e, t')
           end.

(** [try { body } catch (error) { handler error }] *)
Definition try_catch {A} (body : M A) (handler : Error -> M A) : M A :=
  fun t => match body t with
           | (Normal a, t') => (Normal a, t')
           | (Throw e, t') => handler e t'
           end.

Notation "'let!' x ':=' c 'in' k" := (bind c (fun x => k))
  (at level 10, x name, c at level 100, k at level 200).

(** ** Lexical scope *)

(** Bindings visible at a program point, innermost first. *)
Definition scope : Type := list (string * value).

(** The module's only top-level binding. *)
Definition module_scope : scope := [("handler", VFunction "handler")].

Section Handler.

Variable rt : Runtime.

(** An identifier reference: the innermost binding, else a property of the
    global object, else a ReferenceError. *)
Definition ident (sc : scope) (x : string) : M value :=
  match lookup_prop x sc with
  | Some v => ret v
  | None =>
      match globalThis rt !! x with
      | Some v => ret v
      | None => throw (ReferenceError (x +:+ " is not defined"))
      end
  end.

(** [console.debug(v)] *)
Definition console_debug (v : value) : M unit := emit (ConsoleDebug v).

(** [await fetch(input, init)] *)
Definition await_fetch (input init : value) : M value :=
  let! _ := emit (Fetch input init) in
  match fetch rt input init with
  | Normal r => ret (VResponse r)
  | Throw e => throw e
  end.

(** [await r.json()]: read the body, then parse it. *)
Definition await_json (r : value) : M value :=
  match r with
  | VResponse resp =>
      match text resp with
      | Normal s => lift (JSON_parse rt s)
      | Throw e => throw e
      end
  | VUndefined | VNull =>
      throw (TypeError "Cannot read properties of undefined (reading 'json')")
  | _ => throw (TypeError "response.json is not a function")
  end.

(** ** The handler *)

(** Lines 23-43: the bindings of the function body, which is the scope the
    arrow function [errorResponse] closes over and the scope the [try]
    statement runs in. *)
Definition handler_scope (event : value) : scope :=
  let INFURA_ENDPOINT := env_var rt "INFURA_ENDPOINT" in
  let ALLOW_ORIGIN := env_var rt "ALLOW_ORIGIN" in
  let commonHeaders :=
    VObject [("Access-Control-Allow-Credentials", VString "true");
             ("Access-Control-Allow-Origin", nullish ALLOW_ORIGIN (VString "*"))] in
  [("errorResponse", VFunction "errorResponse");
   ("commonHeaders", commonHeaders);
   ("ALLOW_ORIGIN", ALLOW_ORIGIN);
   ("INFURA_ENDPOINT", INFURA_ENDPOINT);
   ("event", event)] ++ module_scope.

(** Lines 31-43. [closure] is the scope the arrow function was created in;
    its body runs in that scope extended with the parameter, whatever the
    scope of the caller. *)
Definition errorResponse (closure : scope) (message : value) : M value :=
  let sc := ("message", message) :: closure in
  let! message := ident sc "message" in
  let body := JSON_stringify rt (VObject [("error", VObject [("message", message)])]) in
  let! commonHeaders := ident sc "commonHeaders" in
  let headers := spread commonHeaders [("Content-Type", VString "application/json")] in
  let! response := ident sc "response" in
  let! statusCode := lift (Get response "status") in
  ret (VObject [("body", body);
                ("headers", VObject headers);
                ("isBase64Encoded", VBool false);
                ("statusCode", statusCode)]).

(** Lines 46-96: the block of the [try] statement. Its [const]
    declarations extend the scope of the block only, [blk]; the call of
    [errorResponse] passes the scope of the function body, [fn], which is
    the one the arrow function closes over. *)
Definition try_block (fn : scope) : M value :=
  let! event := ident fn "event" in
  let! httpMethod := lift (Get event "httpMethod") in
  if IsStrictlyEqual httpMethod (VString "OPTIONS") then
    let! commonHeaders := ident fn "commonHeaders" in
    ret (VObject
           [("body", VString "");
            ("headers",
              VObject (spread commonHeaders
                         [("Access-Control-Allow-Headers", VString "Authorization,Content-type");
                          ("Access-Control-Allow-Methods", VString "OPTIONS,POST")]));
            ("isBase64Encoded", VBool false);
            ("statusCode", VNumber 200)])
  else
  let! event := ident fn "event" in
  let! httpMethod := lift (Get event "httpMethod") in
  if negb (IsStrictlyEqual httpMethod (VString "POST")) then
    let! commonHeaders := ident fn "commonHeaders" in
    ret (VObject
           [("body", VString "");
            ("headers", commonHeaders);
            ("isBase64Encoded", VBool false);
            ("statusCode", VNumber 405)])
  else
  let! INFURA_ENDPOINT := ident fn "INFURA_ENDPOINT" in
  let! event := ident fn "event" in
  let! body := lift (Get event "body") in
  let! response :=
    await_fetch INFURA_ENDPOINT
      (VObject [("method", VString "POST");
                ("headers", VObject [("Content-Type", VString "application/json")]);
                ("body", body)]) in
  let blk := ("response", response) :: fn in
  let! response := ident blk "response" in
  let! response_ok := lift (Get response "ok") in
  if negb (ToBoolean response_ok) then
    let! response := ident blk "response" in
    let! statusText := lift (Get response "statusText") in
    errorResponse fn statusText
  else
  let! response := ident blk "response" in
  let! payload := await_json response in
  let blk := ("payload", payload) :: blk in
  let! payload := ident blk "payload" in
  let body := JSON_stringify rt payload in
  let! commonHeaders := ident blk "commonHeaders" in
  let headers := spread commonHeaders [("Content-Type", VString "application/json")] in
  let! response := ident blk "response" in
  let! statusCode := lift (Get response "status") in
  ret (VObject [("body", body);
                ("headers", VObject headers);
                ("isBase64Encoded", VBool false);
                ("statusCode", statusCode)]).

(** Lines 97-100: the [catch] clause. *)
Definition catch_block (fn : scope) (error : Error) : M value :=
  let blk := ("error", VError error) :: fn in
  let! e := ident blk "error" in
  let! _ := console_debug e in
  let! e := ident blk "error" in
  let! message := lift (Get e "message") in
  errorResponse fn message.

(** Lines 22-101. The result is what the promise returned by the async
    function settles with: [Normal] when it is fulfilled with the returned
    object, [Throw] when it is rejected. *)
Definition handler (event : value) : M value :=
  let fn := handler_scope event in
  try_catch (try_block fn) (catch_block fn).

End Handler.

(** ** Running the handler *)

(** The settled promise of an invocation that starts with an empty log. *)
Definition outcome (rt : Runtime) (event : value) : completion value :=
  fst (handler rt event []).

(** The effects of that invocation, in order. *)
Definition effects (rt : Runtime) (event : value) : list effect :=
  snd (handler rt event []).

(** The outbound calls among a log of effects. *)
Definition fetch_calls (t : list effect) : list (value * value) :=
  omap (fun e => match e with
                 | Fetch input init => Some (input, init)
                 | ConsoleDebug _ => None
                 end) t.

(** The configured origin, or the wildcard. *)
Definition allow_origin (rt : Runtime) : string :=
  default "*" (process_env rt !! "ALLOW_ORIGIN").

(** The two CORS headers every response starts from (lines 26-29). *)
Definition commonHeaders (rt : Runtime) : list (string * value) :=
  [("Access-Control-Allow-Credentials", VString "true");
   ("Access-Control-Allow-Origin", VString (allow_origin rt))].

(** The field [k] of a returned object. *)
Definition field (k : string) (v : value) : option value :=
  match v with
  | VObject ps => lookup_prop k ps
  | _ => None
  end.

(** The shape of every object the handler returns. *)
Definition response_object (body : value) (headers : list (string * value))
    (statusCode : value) : value :=
  VObject [("body", body);
           ("headers", VObject headers);
           ("isBase64Encoded", VBool false);
           ("statusCode", statusCode)].

(** The second argument of the outbound call (lines 72-78). *)
Definition fetch_init (body : value) : value :=
  VObject [("method", VString "POST");
           ("headers", VObject [("Content-Type", VString "application/json")]);
           ("body", body)].

(** The object [errorResponse] serialises (lines 32-36). *)
Definition ErrorPayload (message : string) : value :=
  VObject [("error", VObject [("message", VString message)])].

(** The error every reference to the unbound [response] raises. *)
Definition response_is_not_defined : Error :=
  ReferenceError "response is not defined".

(** The text [s] parses to [v]. *)
Definition parses_to (rt : Runtime) (s : value) (v : value) : Prop :=
  exists txt, s = VString txt /\ JSON_parse rt txt = Normal v.

(** [JSON.stringify] loses nothing of what [JSON.parse] returns. *)
Definition JSON_lossless (rt : Runtime) : Prop :=
  forall s v, JSON_parse rt s = Normal v -> parses_to rt (JSON_stringify rt v) v.

(** The runtime with another upstream endpoint configured. *)
Definition with_endpoint (endpoint : string) (rt : Runtime) : Runtime :=
  {| process_env := <["INFURA_ENDPOINT" := endpoint]> (process_env rt);
     globalThis := globalThis rt;
     fetch := fetch rt;
     JSON_stringify := JSON_stringify rt;
     JSON_parse := JSON_parse rt |}.

(** [needle] occurs in [hay]. *)
Fixpoint contains (needle hay : string) : bool :=
  String.prefix needle hay ||
  match hay with
  | String _ hay' => contains needle hay'
  | EmptyString => false
  end.

(** The [console.debug] calls among a log of effects. *)
Definition debug_calls (t : list effect) : list value :=
  omap (fun e => match e with
                 | ConsoleDebug v => Some v
                 | Fetch _ _ => None
                 end) t.

(** The runtime whose upstream answers with another status text. *)
Definition with_statusText (statusText : string) (rt : Runtime) : Runtime :=
  {| process_env := process_env rt;
     globalThis := globalThis rt;
     fetch := fun input init =>
                match fetch rt input init with
                | Normal r => Normal (mkResponse (status r) statusText (text r))
                | Throw e => Throw e
                end;
     JSON_stringify := JSON_stringify rt;
     JSON_parse := JSON_parse rt |}.

(** The runtime with another upstream. *)
Definition with_upstream (upstream : value -> value -> completion Response)
    (rt : Runtime) : Runtime :=
  {| process_env := process_env rt;
     globalThis := globalThis rt;
     fetch := upstream;
     JSON_stringify := JSON_stringify rt;
     JSON_parse := JSON_parse rt |}.

(** The runtime with another allowed origin configured, or none. *)
Definition with_origin (origin : option string) (rt : Runtime) : Runtime :=
  {| process_env := match origin with
                    | Some o => <["ALLOW_ORIGIN" := o]> (process_env rt)
                    | None => delete "ALLOW_ORIGIN" (process_env rt)
                    end;
     globalThis := globalThis rt;
     fetch := fetch rt;
     JSON_stringify := JSON_stringify rt;
     JSON_parse := JSON_parse rt |}.

(** Two settled promises that differ at most in the headers of the
    returned object. *)
Definition same_but_headers (a b : completion value) : Prop :=
  match a, b with
  | Normal x, Normal y =>
      field "body" x = field "body" y
      /\ field "statusCode" x = field "statusCode" y
      /\ field "isBase64Encoded" x = field "isBase64Encoded" y
  | Throw e, Throw e' => e = e'
  | _, _ => False
  end.

(** ** A reference runtime

    A concrete runtime to evaluate the handler on: the JSON functions of
    ECMA-262 over the values above, and the globals of Node.js that matter
    to the handler. Numbers are exact integers and the two infinities:
    [parse] refuses a literal with a fraction or an exponent,
    [parse_extended] reads a text that is one such literal where its value
    is an integer or overflows, and the rounding of a literal to a double
    is not modelled. Strings are byte strings: an escape above 00FF is
    refused. Properties keep the order of the text (JavaScript moves
    array-index keys first). The messages of the errors are the model's
    own. *)

Module Node.

Definition dquote : ascii := "034"%char.
Definition backslash : ascii := "092"%char.

Definition hex_digit (n : N) : ascii :=
  if (n <? 10)%N then ascii_of_N (48 + n) else ascii_of_N (87 + n).

(** One code unit of QuoteJSONString. *)
Definition quote_char (c : ascii) : string :=
  let n := N_of_ascii c in
  if Ascii.eqb c dquote then String backslash (String dquote "")
  else if Ascii.eqb c backslash then String backslash (String backslash "")
  else if (n =? 8)%N then "\b"
  else if (n =? 9)%N then "\t"
  else if (n =? 10)%N then "\n"
  else if (n =? 12)%N then "\f"
  else if (n =? 13)%N then "\r"
  else if (n <? 32)%N then "\u00" +:+ String (hex_digit (n / 16)) (String (hex_digit (n mod 16)) "")
  else String c "".

Fixpoint quote_chars (s : string) : string :=
  match s with
  | EmptyString => ""
  | String c s' => quote_char c +:+ quote_chars s'
  end.

Definition QuoteJSONString (s : string) : string :=
  String dquote (quote_chars s +:+ String dquote "").

Fixpoint join (sep : string) (l : list string) : string :=
  match l with
  | [] => ""
  | [x] => x
  | x :: l' => x +:+ sep +:+ join sep l'
  end.

(** Number::toString of an integer below 10^21. *)
Definition Number_toString (n : Z) : string :=
  NilZero.string_of_int (Z.to_int n).

(** SerializeJSONProperty: [None] stands for [undefined]. *)
Fixpoint SerializeJSONProperty (v : value) : option string :=
  match v with
  | VUndefined | VFunction _ => None
  | VNull => Some "null"
  | VBool true => Some "true"
  | VBool false => Some "false"
  | VNumber n => Some (Number_toString n)
  | VInfinity _ => Some "null"
  | VString s => Some (QuoteJSONString s)
  | VArray elems =>
      Some ("[" +:+ join "," (map (fun x => default "null" (SerializeJSONProperty x)) elems) +:+ "]")
  | VObject props =>
      let member :=
        fix member (ps : list (string * value)) : list string :=
          match ps with
          | [] => []
          | (k, x) :: ps' =>
              match SerializeJSONProperty x with
              | Some s => (QuoteJSONString k +:+ ":" +:+ s) :: member ps'
              | None => member ps'
              end
          end in
      Some ("{" +:+ join "," (member props) +:+ "}")
  | VError _ | VResponse _ => Some "{}"
  end.

Definition stringify (v : value) : value :=
  match SerializeJSONProperty v with
  | Some s => VString s
  | None => VUndefined
  end.

(** *** JSON.parse *)

Definition is_ws (c : ascii) : bool :=
  let n := N_of_ascii c in
  (n =? 32)%N || (n =? 9)%N || (n =? 10)%N || (n =? 13)%N.

Fixpoint skip_ws (s : string) : string :=
  match s with
  | String c s' => if is_ws c then skip_ws s' else s
  | EmptyString => s
  end.

Definition digit_of (c : ascii) : option Z :=
  let n := N_of_ascii c in
  if (48 <=? n)%N && (n <=? 57)%N then Some (Z.of_N (n - 48)) else None.

Definition hex_of (c : ascii) : option N :=
  let n := N_of_ascii c in
  if (48 <=? n)%N && (n <=? 57)%N then Some (n - 48)%N
  else if (97 <=? n)%N && (n <=? 102)%N then Some (n - 87)%N
  else if (65 <=? n)%N && (n <=? 70)%N then Some (n - 55)%N
  else None.

(** The characters of a string literal after its opening quote, up to the
    closing quote. An escape above [ÿ] has no code unit here. *)
Fixpoint parse_chars (s : string) : option (string * string) :=
  match s with
  | EmptyString => None
  | String c r =>
      if Ascii.eqb c dquote then Some ("", r)
      else if Ascii.eqb c backslash then
        match r with
        | String e r' =>
            let simple (x : ascii) :=
              match parse_chars r' with
              | Some (str, rest) => Some (String x str, rest)
              | None => None
              end in
            if Ascii.eqb e dquote then simple dquote
            else if Ascii.eqb e backslash then simple backslash
            else if Ascii.eqb e "/" then simple "/"%char
            else if Ascii.eqb e "b" then simple "008"%char
            else if Ascii.eqb e "f" then simple "012"%char
            else if Ascii.eqb e "n" then simple "010"%char
            else if Ascii.eqb e "r" then simple "013"%char
            else if Ascii.eqb e "t" then simple "009"%char
            else if Ascii.eqb e "u" then
              match r' with
              | String h1 (String h2 (String h3 (String h4 r''))) =>
                  match hex_of h1, hex_of h2, hex_of h3, hex_of h4 with
                  | Some 0%N, Some 0%N, Some a, Some b =>
                      match parse_chars r'' with
                      | Some (str, rest) => Some (String (ascii_of_N (16 * a + b)) str, rest)
                      | None => None
                      end
                  | _, _, _, _ => None
                  end
              | _ => None
              end
            else None
        | EmptyString => None
        end
      else if (N_of_ascii c <? 32)%N then None
      else
        match parse_chars r with
        | Some (str, rest) => Some (String c str, rest)
        | None => None
        end
  end.

(** The digits at the head of [s], as a number, and what follows them. *)
Fixpoint parse_digits (acc : Z) (s : string) : Z * string :=
  match s with
  | String c r =>
      match digit_of c with
      | Some d => parse_digits (10 * acc + d) r
      | None => (acc, s)
      end
  | EmptyString => (acc, s)
  end.

Definition starts_fraction_or_exponent (s : string) : bool :=
  match s with
  | String c _ => Ascii.eqb c "." || Ascii.eqb c "e" || Ascii.eqb c "E"
  | EmptyString => false
  end.

(** An integer literal without sign: a single 0, or digits not led by 0. *)
Definition parse_natural (s : string) : option (Z * string) :=
  match s with
  | String c r =>
      match digit_of c with
      | Some 0 =>
          match r with
          | String c' _ => if is_Some_dec (digit_of c') then None
                           else if starts_fraction_or_exponent r then None
                           else Some (0, r)
          | EmptyString => Some (0, r)
          end
      | Some d =>
          let (n, rest) := parse_digits d r in
          if starts_fraction_or_exponent rest then None else Some (n, rest)
      | None => None
      end
  | EmptyString => None
  end.

(** What follows [word] at the head of [s]. *)
Fixpoint strip_prefix (word s : string) : option string :=
  match word, s with
  | EmptyString, _ => Some s
  | String a word', String b s' => if Ascii.eqb a b then strip_prefix word' s' else None
  | String _ _, EmptyString => None
  end.

Definition parse_literal (word : string) (v : value) (s : string)
  : option (value * string) :=
  match strip_prefix word s with
  | Some rest => Some (v, rest)
  | None => None
  end.

Fixpoint parse_value (fuel : nat) (s : string) : option (value * string) :=
  match fuel with
  | O => None
  | S fuel =>
      match skip_ws s with
      | EmptyString => None
      | String c r =>
          if Ascii.eqb c "n" then parse_literal "null" VNull (String c r)
          else if Ascii.eqb c "t" then parse_literal "true" (VBool true) (String c r)
          else if Ascii.eqb c "f" then parse_literal "false" (VBool false) (String c r)
          else if Ascii.eqb c dquote then
            match parse_chars r with
            | Some (str, rest) => Some (VString str, rest)
            | None => None
            end
          else if Ascii.eqb c "-" then
            match parse_natural r with
            | Some (n, rest) => Some (VNumber (- n), rest)
            | None => None
            end
          else if Ascii.eqb c "[" then
            match skip_ws r with
            | String c' r' =>
                if Ascii.eqb c' "]" then Some (VArray [], r')
                else parse_elements fuel r []
            | EmptyString => None
            end
          else if Ascii.eqb c "{" then
            match skip_ws r with
            | String c' r' =>
                if Ascii.eqb c' "}" then Some (VObject [], r')
                else parse_members fuel r []
            | EmptyString => None
            end
          else
            match parse_natural (String c r) with
            | Some (n, rest) => Some (VNumber n, rest)
            | None => None
            end
      end
  end
with parse_elements (fuel : nat) (s : string) (acc : list value)
  : option (value * string) :=
  match fuel with
  | O => None
  | S fuel =>
      match parse_value fuel s with
      | Some (v, rest) =>
          match skip_ws rest with
          | String c r =>
              if Ascii.eqb c "," then parse_elements fuel r (acc ++ [v])
              else if Ascii.eqb c "]" then Some (VArray (acc ++ [v]), r)
              else None
          | EmptyString => None
          end
      | None => None
      end
  end
with parse_members (fuel : nat) (s : string) (acc : list (string * value))
  : option (value * string) :=
  match fuel with
  | O => None
  | S fuel =>
      match skip_ws s with
      | String q r =>
          if Ascii.eqb q dquote then
            match parse_chars r with
            | Some (k, rest) =>
                match skip_ws rest with
                | String colon r' =>
                    if Ascii.eqb colon ":" then
                      match parse_value fuel r' with
                      | Some (v, rest') =>
                          match skip_ws rest' with
                          | String c r'' =>
                              if Ascii.eqb c "," then parse_members fuel r'' (set_prop k v acc)
                              else if Ascii.eqb c "}" then Some (VObject (set_prop k v acc), r'')
                              else None
                          | EmptyString => None
                          end
                      | None => None
                      end
                    else None
                | EmptyString => None
                end
            | None => None
            end
          else None
      | EmptyString => None
      end
  end.

(** JSON.parse, on texts whose number literals are integers. *)
Definition parse (s : string) : completion value :=
  match parse_value (2 * String.length s + 2) s with
  | Some (v, rest) =>
      match skip_ws rest with
      | EmptyString => Normal v
      | String _ _ => Throw (SyntaxError "Unexpected non-whitespace character after JSON")
      end
  | None => Throw (SyntaxError "Unexpected token in JSON")
  end.

(** *** Number literals with a fraction or an exponent

    [parse] reads integer literals. A text that is one number literal is
    read here with its fraction and its exponent, as JSON.parse reads it,
    where its value is an integer or lies beyond the range of a double;
    the rounding of the other values to a double is not modelled, and
    their texts are left to [parse]. *)









(** *** What a serialisation is

    The notions the round trip of the two functions is stated with. *)

(** What may follow a value: nothing that continues a number. *)
Definition delimited (rest : string) : bool :=
  match rest with
  | EmptyString => true
  | String c _ =>
      negb (bool_decide (is_Some (digit_of c))) && negb (starts_fraction_or_exponent rest)
  end.

(** The value of the digits [d] after the digits read so far. *)
Fixpoint uint_value (acc : Z) (d : Decimal.uint) : Z :=
  match d with
  | Decimal.Nil => acc
  | Decimal.D0 d => uint_value (10 * acc + 0) d
  | Decimal.D1 d => uint_value (10 * acc + 1) d
  | Decimal.D2 d => uint_value (10 * acc + 2) d
  | Decimal.D3 d => uint_value (10 * acc + 3) d
  | Decimal.D4 d => uint_value (10 * acc + 4) d
  | Decimal.D5 d => uint_value (10 * acc + 5) d
  | Decimal.D6 d => uint_value (10 * acc + 6) d
  | Decimal.D7 d => uint_value (10 * acc + 7) d
  | Decimal.D8 d => uint_value (10 * acc + 8) d
  | Decimal.D9 d => uint_value (10 * acc + 9) d
  end.

(** The head of a serialisation: no white space, no closing bracket. *)
Definition starts_value (txt : string) : bool :=
  match txt with
  | EmptyString => false
  | String c _ => negb (is_ws c) && negb (Ascii.eqb c "]") && negb (Ascii.eqb c "}")
  end.

(** [txt] is the serialisation of [v], and parses back to it. *)
Definition serialized (v : value) (txt : string) : Prop :=
  SerializeJSONProperty v = Some txt
  /\ starts_value txt = true
  /\ forall rest fuel,
       delimited rest = true -> (String.length txt <= fuel)%nat ->
       parse_value fuel (txt +:+ rest) = Some (v, rest).

Definition roundtrips (v : value) : Prop := exists txt, serialized v txt.

(** The member texts of SerializeJSONObject. *)
Fixpoint members (ps : list (string * value)) : list string :=
  match ps with
  | [] => []
  | (k, x) :: ps' =>
      match SerializeJSONProperty x with
      | Some s => (QuoteJSONString k +:+ ":" +:+ s) :: members ps'
      | None => members ps'
      end
  end.

(** [m] is the member text of the property [kv]. *)
Definition member_serialized (kv : string * value) (m : string) : Prop :=
  exists t, serialized (snd kv) t /\ m = QuoteJSONString (fst kv) +:+ ":" +:+ t.

(** JSON text is written below with apostrophes for the double quotes. *)
Fixpoint json_text (s : string) : string :=
  match s with
  | EmptyString => ""
  | String c s' => String (if Ascii.eqb c "'" then dquote else c) (json_text s')
  end.

(** The global object of Node.js 18: the names the module refers to and its
    fetch classes. It has no property [response]. *)
Definition globals : gmap string value :=
  list_to_map
    [("globalThis", VFunction "globalThis"); ("process", VFunction "process");
     ("console", VFunction "console"); ("JSON", VFunction "JSON");
     ("fetch", VFunction "fetch"); ("Response", VFunction "Response");
     ("Request", VFunction "Request"); ("Headers", VFunction "Headers")].

(** The runtime with the given environment variables and upstream. *)
Definition runtime (env : list (string * string))
    (upstream : value -> value -> completion Response) : Runtime :=
  {| process_env := list_to_map env;
     globalThis := globals;
     fetch := upstream;
     JSON_stringify := stringify;
     JSON_parse := parse |}.


End Node.

(** ** Invocations to evaluate the handler on *)

Module Examples.

Definition endpoint : string := "https://mainnet.infura.io/v3/0123456789abcdef".

Definition env : list (string * string) :=
  [("INFURA_ENDPOINT", endpoint); ("ALLOW_ORIGIN", "https://app.example.org")].

Definition request_text : string :=
  Node.json_text "{'jsonrpc':'2.0','method':'eth_blockNumber','id':1}".

Definition post_event : value :=
  VObject [("httpMethod", VString "POST"); ("body", VString request_text)].

Definition options_event : value :=
  VObject [("httpMethod", VString "OPTIONS")].

Definition get_event : value :=
  VObject [("httpMethod", VString "GET"); ("body", VNull)].

(** The upstream answers 200 with a JSON-RPC result. *)
Definition result_text : string :=
  Node.json_text "{ 'jsonrpc': '2.0', 'id': 1, 'result': '0x10' }".

Definition result_payload : value :=
  VObject [("jsonrpc", VString "2.0"); ("id", VNumber 1); ("result", VString "0x10")].

Definition response_200 : Response := mkResponse 200 "OK" (Normal result_text).

Definition upstream_200 (input init : value) : completion Response :=
  Normal response_200.

(** The upstream rejects the key. *)
Definition response_401 : Response :=
  mkResponse 401 "Unauthorized" (Normal "invalid project id").

Definition upstream_401 (input init : value) : completion Response :=
  Normal response_401.

(** The connection fails. *)
Definition upstream_down (input init : value) : completion Response :=
  Throw (TypeError "fetch failed").

(** The upstream answers 200 with a body that is no JSON text. *)
Definition upstream_html (input init : value) : completion Response :=
  Normal (mkResponse 200 "OK" (Normal "<html>Bad gateway</html>")).

(** The upstream answers 200 with a payload that quotes the URL it was
    called on. *)
Definition echo_text : string :=
  Node.json_text
    "{'jsonrpc':'2.0','id':1,'result':'https://mainnet.infura.io/v3/0123456789abcdef'}".

Definition upstream_echo (input init : value) : completion Response :=
  Normal (mkResponse 200 "OK" (Normal echo_text)).



(** A POST event as an HTTP gateway delivers it, with more than the two
    fields the handler reads. *)
Definition gateway_event : value :=
  VObject [("resource", VString "/");
           ("path", VString "/admin");
           ("httpMethod", VString "POST");
           ("headers", VObject [("authorization", VString "Bearer 0000")]);
           ("body", VString request_text);
           ("isBase64Encoded", VBool false)].

(** An event without httpMethod. *)
Definition bare_event : value := VObject [("body", VString request_text)].

(** A runtime whose global object has a property [response]. *)
Definition runtime_with_global_response : Runtime :=
  {| process_env := list_to_map env;
     globalThis := <["response" := VObject [("status", VNumber 502)]]> Node.globals;
     fetch := upstream_401;
     JSON_stringify := Node.stringify;
     JSON_parse := Node.parse |}.

End Examples.

(** * Properties *)

(** ** Reading the scope of the function body *)

Section Scope.

Variable rt : Runtime.

Lemma nullish_allow_origin :
  nullish (env_var rt "ALLOW_ORIGIN") (VString "*") = VString (allow_origin rt).
Proof.
  unfold env_var, allow_origin.
  destruct (process_env rt !! "ALLOW_ORIGIN"); reflexivity.
Qed.

Lemma IsStrictlyEqual_string (v : value) (s : string) :
  IsStrictlyEqual v (VString s) = true <-> v = VString s.
Proof.
  destruct v; simpl; try (split; [discriminate | discriminate]).
  rewrite String.eqb_eq. split; congruence.
Qed.

Lemma IsStrictlyEqual_string_false (v : value) (s : string) :
  v <> VString s -> IsStrictlyEqual v (VString s) = false.
Proof.
  intros H. destruct (IsStrictlyEqual v (VString s)) eqn:E; [|reflexivity].
  apply IsStrictlyEqual_string in E. contradiction.
Qed.

End Scope.

(** ** The JSON functions of the reference runtime

    [Node.parse] inverts [Node.stringify] on every value it returns: by
    induction on the fuel of the parser, every value it returns has a
    serialisation that parses back to it. *)

Module NodeJSON.
Import Node.

#[local] Arguments String.append !_ _ / : simpl nomatch.
#[local] Arguments N.add !_ !_ / : simpl nomatch.
#[local] Arguments N.mul !_ !_ / : simpl nomatch.
#[local] Arguments N.sub !_ !_ / : simpl nomatch.
#[local] Arguments N.div !_ !_ / : simpl nomatch.
#[local] Arguments N.modulo !_ !_ / : simpl nomatch.
#[local] Arguments Pos.add !_ !_ / : simpl nomatch.
#[local] Arguments Pos.mul !_ !_ / : simpl nomatch.
#[local] Arguments Pos.succ !_ / : simpl nomatch.

Lemma append_assoc (a b c : string) : (a +:+ b) +:+ c = a +:+ (b +:+ c).
Proof. induction a as [|x a IH]; cbn; [reflexivity | rewrite IH; reflexivity]. Qed.

Lemma append_nil_r (a : string) : a +:+ "" = a.
Proof. induction a as [|x a IH]; cbn; [reflexivity | rewrite IH; reflexivity]. Qed.

Lemma length_append (a b : string) :
  String.length (a +:+ b) = (String.length a + String.length b)%nat.
Proof. induction a as [|x a IH]; cbn; [reflexivity | rewrite IH; reflexivity]. Qed.

(** *** String literals *)

Lemma parse_chars_quote_chars (s rest : string) :
  parse_chars (quote_chars s +:+ String dquote rest) = Some (s, rest).
Proof.
  induction s as [|c s IH]; [reflexivity|].
  cbn [quote_chars]. rewrite append_assoc.
  cbn in IH.
  destruct c as [[] [] [] [] [] [] [] []]; cbn; rewrite IH; reflexivity.
Qed.

Lemma QuoteJSONString_append (s rest : string) :
  QuoteJSONString s +:+ rest = String dquote (quote_chars s +:+ String dquote rest).
Proof. unfold QuoteJSONString. cbn. rewrite append_assoc. reflexivity. Qed.


(** *** Numbers *)

Lemma delimited_digit (c : ascii) (rest : string) :
  delimited (String c rest) = true -> digit_of c = None.
Proof.
  cbn. intros H. apply andb_prop in H as [H _].
  destruct (digit_of c); [|reflexivity].
  rewrite bool_decide_eq_true_2 in H by eauto. discriminate.
Qed.

Lemma delimited_fraction (rest : string) :
  delimited rest = true -> starts_fraction_or_exponent rest = false.
Proof.
  destruct rest as [|c rest]; [reflexivity|].
  cbn. intros H. apply andb_prop in H as [_ H].
  apply negb_true_iff in H. exact H.
Qed.

Lemma parse_digits_uint (d : Decimal.uint) (acc : Z) (rest : string) :
  delimited rest = true ->
  parse_digits acc (NilEmpty.string_of_uint d +:+ rest) = (uint_value acc d, rest).
Proof.
  intros Hrest. revert acc.
  induction d; intros acc; cbn; try apply IHd.
  destruct rest as [|c rest]; [reflexivity|].
  cbn. rewrite (delimited_digit _ _ Hrest). reflexivity.
Qed.

Lemma uint_value_acc (d : Decimal.uint) (p : positive) :
  uint_value (Z.pos p) d = Z.pos (Pos.of_uint_acc d p).
Proof.
  revert p. induction d; intros p; cbn [uint_value Pos.of_uint_acc];
    [reflexivity | ..];
    match goal with
    | |- uint_value ?a _ = Z.pos (Pos.of_uint_acc _ ?q) =>
        replace a with (Z.pos q) by lia; apply IHd
    end.
Qed.

Lemma uint_value_of_uint (d : Decimal.uint) :
  uint_value 0 d = Z.of_N (Pos.of_uint d).
Proof.
  induction d; cbn [uint_value Pos.of_uint]; [reflexivity | exact IHd | ..];
    match goal with
    | |- uint_value ?a _ = Z.of_N (N.pos (Pos.of_uint_acc _ ?q)) =>
        replace a with (Z.pos q) by lia; apply uint_value_acc
    end.
Qed.

Lemma to_uint_value (p : positive) : uint_value 0 (Pos.to_uint p) = Z.pos p.
Proof. rewrite uint_value_of_uint, DecimalPos.Unsigned.of_to. reflexivity. Qed.

Lemma to_uint_head (p : positive) :
  match Pos.to_uint p with
  | Decimal.Nil | Decimal.D0 _ => False
  | _ => True
  end.
Proof.
  pose proof (DecimalPos.Unsigned.to_of (Pos.to_uint p)) as H.
  rewrite DecimalPos.Unsigned.of_to in H. cbn in H.
  pose proof (DecimalPos.Unsigned.to_uint_nonzero p) as Hz.
  destruct (Pos.to_uint p) eqn:E; try exact I.
  - discriminate.
  - unfold Decimal.unorm in H. cbn in H.
    pose proof (DecimalFacts.nzhead_nonzero u) as Hn.
    destruct (Decimal.nzhead u) eqn:En.
    + apply Hz. exact H.
    + eapply Hn. reflexivity.
    + discriminate. + discriminate. + discriminate. + discriminate.
    + discriminate. + discriminate. + discriminate. + discriminate.
    + discriminate.
Qed.

Lemma parse_natural_pos (p : positive) (rest : string) :
  delimited rest = true ->
  parse_natural (NilEmpty.string_of_uint (Pos.to_uint p) +:+ rest) = Some (Z.pos p, rest).
Proof.
  intros Hrest.
  pose proof (to_uint_head p) as Hh. pose proof (to_uint_value p) as Hv.
  destruct (Pos.to_uint p) eqn:E; try contradiction;
    cbn; cbn in Hv; rewrite Z.mul_0_r, Z.add_0_l in Hv;
    rewrite parse_digits_uint by exact Hrest;
    rewrite (delimited_fraction _ Hrest); rewrite Hv; reflexivity.
Qed.


(** *** Values *)

Lemma roundtrips_null : roundtrips VNull.
Proof.
  exists "null". split; [reflexivity|]. split; [reflexivity|].
  intros rest [|fuel] _ Hf; [cbn in Hf; lia|]. reflexivity.
Qed.

Lemma roundtrips_bool (b : bool) : roundtrips (VBool b).
Proof.
  destruct b.
  - exists "true". split; [reflexivity|]. split; [reflexivity|].
    intros rest [|fuel] _ Hf; [cbn in Hf; lia|]. reflexivity.
  - exists "false". split; [reflexivity|]. split; [reflexivity|].
    intros rest [|fuel] _ Hf; [cbn in Hf; lia|]. reflexivity.
Qed.

Lemma roundtrips_string (s : string) : roundtrips (VString s).
Proof.
  exists (QuoteJSONString s). split; [reflexivity|]. split; [reflexivity|].
  intros rest [|fuel] _ Hf; [cbn in Hf; lia|].
  rewrite QuoteJSONString_append. cbn -[parse_chars].
  rewrite parse_chars_quote_chars. reflexivity.
Qed.

Lemma roundtrips_number (n : Z) : roundtrips (VNumber n).
Proof.
  exists (Number_toString n). split; [reflexivity|].
  destruct n as [|p|p]; unfold Number_toString; cbn [Z.to_int NilZero.string_of_int].
  - split; [reflexivity|].
    intros rest [|fuel] Hrest Hf; [cbn in Hf; lia|].
    destruct rest as [|c rest]; [reflexivity|].
    cbn -[starts_fraction_or_exponent]. rewrite (delimited_digit _ _ Hrest).
    rewrite (delimited_fraction _ Hrest). reflexivity.
  - pose proof (to_uint_head p) as Hh.
    assert (Hs : NilZero.string_of_uint (Pos.to_uint p)
                 = NilEmpty.string_of_uint (Pos.to_uint p)).
    { destruct (Pos.to_uint p); try reflexivity; contradiction. }
    rewrite Hs. split.
    + destruct (Pos.to_uint p); try contradiction; reflexivity.
    + intros rest [|fuel] Hrest Hf.
      { destruct (Pos.to_uint p); try contradiction; cbn in Hf; lia. }
      pose proof (parse_natural_pos p rest Hrest) as Hp.
      destruct (Pos.to_uint p); try contradiction;
        cbn -[parse_natural] in Hp |- *; rewrite Hp; reflexivity.
  - pose proof (to_uint_head p) as Hh.
    assert (Hs : NilZero.string_of_uint (Pos.to_uint p)
                 = NilEmpty.string_of_uint (Pos.to_uint p)).
    { destruct (Pos.to_uint p); try reflexivity; contradiction. }
    rewrite Hs. split; [reflexivity|].
    intros rest [|fuel] Hrest Hf; [cbn in Hf; lia|].
    cbn -[parse_natural]. rewrite (parse_natural_pos p rest Hrest). reflexivity.
Qed.


(** *** Arrays *)

Lemma starts_value_head (s : string) :
  starts_value s = true ->
  exists c r, s = String c r /\ is_ws c = false
              /\ Ascii.eqb c "]" = false /\ Ascii.eqb c "}" = false.
Proof.
  destruct s as [|c r]; [discriminate|]. cbn. intros H.
  apply andb_prop in H as [H H3]. apply andb_prop in H as [H1 H2].
  exists c, r. rewrite !negb_true_iff in *. auto.
Qed.

Lemma starts_value_append (a b : string) :
  starts_value a = true -> starts_value (a +:+ b) = true.
Proof. destruct a; [discriminate|]. cbn. auto. Qed.

Lemma join_cons (sep x y : string) (l : list string) :
  join sep (x :: y :: l) = x +:+ sep +:+ join sep (y :: l).
Proof. reflexivity. Qed.

Lemma roundtrips_texts (l : list value) :
  Forall roundtrips l -> exists ts, Forall2 serialized l ts.
Proof.
  induction 1 as [|v l [t Ht] _ [ts Hts]].
  - exists []. constructor.
  - exists (t :: ts). constructor; assumption.
Qed.

Lemma serialized_elements (l : list value) (ts : list string) :
  Forall2 serialized l ts ->
  map (fun x => default "null" (SerializeJSONProperty x)) l = ts.
Proof.
  induction 1 as [|v t l ts (Hv & _) _ IH]; [reflexivity|].
  cbn. rewrite Hv, IH. reflexivity.
Qed.

Lemma parse_elements_join (l : list value) (ts : list string) :
  Forall2 serialized l ts -> l <> [] ->
  forall acc rest fuel,
    (S (String.length (join "," ts)) <= fuel)%nat ->
    parse_elements fuel (join "," ts +:+ String "]" rest) acc
    = Some (VArray (acc ++ l), rest).
Proof.
  induction 1 as [|v t l ts (Hv & Hs & Hp) Hl IH]; [congruence|]. intros _.
  intros acc rest [|fuel] Hf; [lia|].
  destruct Hl as [|v' t' l ts Hv' Hl].
  - cbn [join] in *. cbn [parse_elements].
    rewrite Hp by (reflexivity || lia). cbn. reflexivity.
  - rewrite join_cons in *. rewrite length_append in Hf.
    change ("," +:+ join "," (t' :: ts)) with (String "," (join "," (t' :: ts))) in *.
    cbn [String.length] in Hf.
    rewrite append_assoc. cbn [String.append]. cbn [parse_elements].
    rewrite Hp by (reflexivity || lia). cbn -[parse_elements join].
    rewrite IH by (discriminate || lia).
    rewrite <- app_assoc. reflexivity.
Qed.

Lemma roundtrips_array (l : list value) : Forall roundtrips l -> roundtrips (VArray l).
Proof.
  intros H. destruct (roundtrips_texts l H) as [ts Hts].
  exists ("[" +:+ join "," ts +:+ "]"). split; [|split].
  - cbn [SerializeJSONProperty]. rewrite (serialized_elements l ts Hts). reflexivity.
  - reflexivity.
  - intros rest [|fuel] Hrest Hf; [cbn in Hf; lia|].
    cbn [String.append] in *. cbn [String.length] in Hf.
    rewrite length_append in Hf. cbn [String.length] in Hf.
    rewrite append_assoc. cbn [String.append].
    destruct Hts as [|v t l ts Hv Hl].
    + reflexivity.
    + assert (Hhead : starts_value (join "," (t :: ts) +:+ String "]" rest) = true).
      { apply starts_value_append. destruct ts.
        - apply Hv.
        - rewrite join_cons. apply starts_value_append. apply Hv. }
      pose proof (parse_elements_join (v :: l) (t :: ts)
                    (List.Forall2_cons _ _ Hv Hl) ltac:(discriminate) [] rest fuel
                    ltac:(lia)) as Hparse.
      destruct (starts_value_head _ Hhead) as (c & r & E & Hws & Hc & _).
      rewrite E in *.
      cbn -[parse_elements]. rewrite Hws. rewrite Hc. exact Hparse.
Qed.


(** *** Objects *)

Lemma SerializeJSONProperty_object (ps : list (string * value)) :
  SerializeJSONProperty (VObject ps) = Some ("{" +:+ join "," (members ps) +:+ "}").
Proof.
  reflexivity.
Qed.

Lemma roundtrips_members (ps : list (string * value)) :
  Forall (fun kv => roundtrips (snd kv)) ps ->
  exists ms, Forall2 member_serialized ps ms.
Proof.
  induction 1 as [|kv ps [t Ht] _ [ms Hms]].
  - exists []. constructor.
  - eexists (_ :: ms). constructor; [exists t; split; [exact Ht | reflexivity] | assumption].
Qed.

Lemma serialized_members (ps : list (string * value)) (ms : list string) :
  Forall2 member_serialized ps ms -> members ps = ms.
Proof.
  induction 1 as [|[k x] m ps ms (t & (Hv & _) & ->) _ IH]; [reflexivity|].
  cbn in *. rewrite Hv, IH. reflexivity.
Qed.

Lemma set_prop_fresh (k : string) (v : value) (acc : list (string * value)) :
(k ∉ map fst acc) -> set_prop k v acc = acc ++ [(k, v)].
Proof.
  induction acc as [|[k' v'] acc IH]; [reflexivity|].
  cbn. intros Hk. rewrite not_elem_of_cons in Hk. destruct Hk as [Hne Hk].
  destruct (String.eqb_spec k k'); [contradiction|].
  rewrite IH by exact Hk. reflexivity.
Qed.

Lemma set_prop_keys (k : string) (v : value) (acc : list (string * value)) :
  map fst (set_prop k v acc) = map fst acc \/
  ((k ∉ map fst acc) /\ map fst (set_prop k v acc) = map fst acc ++ [k]).
Proof.
  induction acc as [|[k' v'] acc IH]; [right; split; [apply not_elem_of_nil | reflexivity]|].
  cbn. destruct (String.eqb_spec k k') as [->|Hne]; [left; reflexivity|].
  cbn. destruct IH as [IH | [Hk IH]]; rewrite IH.
  - left. reflexivity.
  - right. split; [|reflexivity]. rewrite not_elem_of_cons. auto.
Qed.

Lemma set_prop_NoDup (k : string) (v : value) (acc : list (string * value)) :
  NoDup (map fst acc) -> NoDup (map fst (set_prop k v acc)).
Proof.
  intros H. destruct (set_prop_keys k v acc) as [E | [Hk E]]; rewrite E; [exact H|].
  apply NoDup_app. split; [exact H|]. split.
  - intros x Hx Hx'. apply list_elem_of_singleton in Hx'. subst. contradiction.
  - apply NoDup_singleton.
Qed.

Lemma set_prop_Forall (P : string * value -> Prop) (k : string) (v : value)
    (acc : list (string * value)) :
  (forall k', P (k', v)) -> Forall P acc -> Forall P (set_prop k v acc).
Proof.
  intros Hv. induction 1 as [|[k' v'] acc Hx Hacc IH]; cbn.
  - constructor; [apply Hv | constructor].
  - destruct (String.eqb k k'); constructor; auto.
Qed.

Lemma parse_members_join (ps : list (string * value)) (ms : list string) :
  Forall2 member_serialized ps ms -> ps <> [] ->
  forall acc rest fuel,
    NoDup (map fst (acc ++ ps)) ->
    (S (String.length (join "," ms)) <= fuel)%nat ->
    parse_members fuel (join "," ms +:+ String "}" rest) acc
    = Some (VObject (acc ++ ps), rest).
Proof.
  induction 1 as [|[k v] m ps ms (t & (Hv & Hs & Hp) & ->) Hl IH]; [congruence|].
  intros _ acc rest [|fuel] Hnd Hf; [lia|].
  assert (Hk : k ∉ map fst acc).
  { rewrite map_app in Hnd. apply NoDup_app in Hnd as (_ & Hd & _).
    intros Hin. apply (Hd k Hin). cbn. apply list_elem_of_here. }
  cbn [fst snd] in *.
  destruct Hl as [|kv' m' ps ms Hv' Hl].
  - cbn [join] in *.
    rewrite QuoteJSONString_append. rewrite !length_append in Hf.
    cbn [String.append]. rewrite append_assoc. cbn [String.append].
    cbn -[parse_chars parse_value]. rewrite parse_chars_quote_chars.
    cbn -[parse_value].
    rewrite Hp by (reflexivity || (cbn [String.length] in Hf; lia)).
    cbn. rewrite set_prop_fresh by exact Hk. reflexivity.
  - rewrite join_cons in *.
    rewrite QuoteJSONString_append. rewrite !length_append in Hf.
    change ("," +:+ join "," (m' :: ms)) with (String "," (join "," (m' :: ms))) in *.
    repeat (rewrite append_assoc || (progress cbn [String.append])).
    cbn -[parse_chars parse_value join].
    rewrite parse_chars_quote_chars.
    cbn -[parse_value join].
    rewrite Hp by (reflexivity || (cbn [String.length] in Hf; lia)).
    cbn -[join].
    rewrite set_prop_fresh by exact Hk.
    rewrite IH.
    + rewrite <- app_assoc. reflexivity.
    + discriminate.
    + rewrite <- app_assoc. exact Hnd.
    + cbn [String.length] in Hf. lia.
Qed.

Lemma roundtrips_object (ps : list (string * value)) :
  NoDup (map fst ps) ->
  Forall (fun kv => roundtrips (snd kv)) ps ->
  roundtrips (VObject ps).
Proof.
  intros Hnd H. destruct (roundtrips_members ps H) as [ms Hms].
  exists ("{" +:+ join "," ms +:+ "}"). split; [|split].
  - rewrite SerializeJSONProperty_object, (serialized_members ps ms Hms). reflexivity.
  - reflexivity.
  - intros rest [|fuel] Hrest Hf; [cbn in Hf; lia|].
    cbn [String.append] in *. cbn [String.length] in Hf.
    rewrite length_append in Hf. cbn [String.length] in Hf.
    rewrite append_assoc. cbn [String.append].
    destruct Hms as [|kv m ps ms Hv Hl].
    + reflexivity.
    + pose proof (parse_members_join (kv :: ps) (m :: ms)
                    (List.Forall2_cons _ _ Hv Hl) ltac:(discriminate) [] rest fuel
                    Hnd ltac:(lia)) as Hparse.
      assert (Hm : exists r, join "," (m :: ms) +:+ String "}" rest = String dquote r).
      { destruct Hv as (t & _ & ->). destruct ms.
        - cbn [join]. rewrite QuoteJSONString_append. eauto.
        - rewrite join_cons. rewrite QuoteJSONString_append. cbn [String.append]. eauto. }
      destruct Hm as [r E]. rewrite E in *.
      cbn -[parse_members]. exact Hparse.
Qed.


(** *** What the parser returns *)

Lemma parse_literal_value (word : string) (w v : value) (s rest : string) :
  parse_literal word w s = Some (v, rest) -> v = w.
Proof.
  unfold parse_literal. destruct (strip_prefix word s); [|discriminate].
  intros [= <- _]. reflexivity.
Qed.

Lemma parse_roundtrips (fuel : nat) :
  (forall s v rest, parse_value fuel s = Some (v, rest) -> roundtrips v)
  /\ (forall s acc v rest,
        Forall roundtrips acc ->
        parse_elements fuel s acc = Some (v, rest) -> roundtrips v)
  /\ (forall s acc v rest,
        NoDup (map fst acc) ->
        Forall (fun kv => roundtrips (snd kv)) acc ->
        parse_members fuel s acc = Some (v, rest) -> roundtrips v).
Proof.
  induction fuel as [|fuel (IHv & IHe & IHm)]; [repeat split; intros; discriminate|].
  split; [|split].
  - intros s v rest. cbn -[parse_chars parse_natural parse_literal].
    repeat case_match; try discriminate; intros Hparse.
    all: try (apply parse_literal_value in Hparse; subst;
              first [apply roundtrips_null | apply roundtrips_bool]).
    all: try (injection Hparse as <- _;
              first [apply roundtrips_string | apply roundtrips_number
                    | apply roundtrips_array; constructor
                    | apply roundtrips_object; constructor]).
    + eapply IHe; [|exact Hparse]. constructor.
    + eapply IHm; [| |exact Hparse]; constructor.
  - intros s acc v rest Hacc. cbn.
    repeat case_match; try discriminate; intros Hparse; subst.
    + eapply IHe; [|exact Hparse]. apply Forall_app. split; [exact Hacc|].
      constructor; [|constructor]. eapply IHv. eassumption.
    + injection Hparse as <- _. apply roundtrips_array.
      apply Forall_app. split; [exact Hacc|].
      constructor; [|constructor]. eapply IHv. eassumption.
  - intros s acc v rest Hnd Hacc. cbn -[parse_chars].
    repeat case_match; try discriminate; intros Hparse; subst.
    + eapply IHm; [| |exact Hparse].
      * apply set_prop_NoDup. exact Hnd.
      * apply set_prop_Forall; [|exact Hacc]. intros k0. cbn. eapply IHv. eassumption.
    + injection Hparse as <- _. apply roundtrips_object.
      * apply set_prop_NoDup. exact Hnd.
      * apply set_prop_Forall; [|exact Hacc]. intros k0. cbn. eapply IHv. eassumption.
Qed.

(** JSON.parse inverts JSON.stringify on every value JSON.parse returns. *)
Theorem parse_stringify (s : string) (v : value) :
  parse s = Normal v ->
  exists txt, stringify v = VString txt /\ parse txt = Normal v.
Proof.
  unfold parse. destruct (parse_value _ s) as [[v' rest]|] eqn:E; [|discriminate].
  destruct (skip_ws rest); [|discriminate]. intros [= <-].
  destruct (proj1 (parse_roundtrips _) _ _ _ E) as (txt & Hs & _ & Hp).
  exists txt. unfold stringify. rewrite Hs. split; [reflexivity|].
  specialize (Hp "" (2 * String.length txt + 2)%nat eq_refl ltac:(lia)).
  rewrite append_nil_r in Hp. rewrite Hp. reflexivity.
Qed.

End NodeJSON.

Lemma Node_JSON_lossless (env : list (string * string))
    (upstream : value -> value -> completion Response) :
  JSON_lossless (Node.runtime env upstream).
Proof.
  intros s v H. destruct (NodeJSON.parse_stringify s v H) as (txt & Hs & Hp).
  exists txt. split; assumption.
Qed.

(** ** The paths that return *)

Ltac run_handler :=
  unfold handler, try_catch, try_block, catch_block, errorResponse,
    await_fetch, await_json, console_debug, emit, bind, lift, ident, ret, throw;
  cbn.

(** C6. A request with httpMethod OPTIONS is answered at once, with no
    effect at all (so no upstream call): status 200, empty body, and the
    two CORS headers after Access-Control-Allow-Headers and
    Access-Control-Allow-Methods. *)
Theorem handler_OPTIONS (rt : Runtime) (event : value) (t : list effect) :
  Get event "httpMethod" = Normal (VString "OPTIONS") ->
  handler rt event t =
    (Normal (response_object (VString "")
               ([("Access-Control-Allow-Headers", VString "Authorization,Content-type");
                 ("Access-Control-Allow-Methods", VString "OPTIONS,POST")]
                ++ commonHeaders rt)
               (VNumber 200)), t).
Proof.
  intros H. run_handler. rewrite H. cbn.
  rewrite nullish_allow_origin. reflexivity.
Qed.

(** C7. A request whose httpMethod is neither OPTIONS nor POST is answered
    with status 405, an empty body and exactly the two CORS headers, with
    no effect at all (so no upstream call). *)
Theorem handler_method_not_allowed (rt : Runtime) (event httpMethod : value)
    (t : list effect) :
  Get event "httpMethod" = Normal httpMethod ->
  httpMethod <> VString "OPTIONS" ->
  httpMethod <> VString "POST" ->
  handler rt event t =
    (Normal (response_object (VString "") (commonHeaders rt) (VNumber 405)), t).
Proof.
  intros H Hopt Hpost. run_handler. rewrite H. cbn.
  rewrite (IsStrictlyEqual_string_false _ _ Hopt). cbn.
  rewrite (IsStrictlyEqual_string_false _ _ Hpost). cbn.
  rewrite nullish_allow_origin. reflexivity.
Qed.


(** ** The unbound [response] of [errorResponse] *)

Section Unbound.

Variable rt : Runtime.
Hypothesis no_global_response : globalThis rt !! "response" = None.

(** In the scope [errorResponse] closes over, [response] resolves to
    nothing: the [const response] of line 72 belongs to the block of the
    [try] statement. *)
Lemma errorResponse_throws (event message : value) (t : list effect) :
  errorResponse rt (handler_scope rt event) message t =
    (Throw response_is_not_defined, t).
Proof.
  run_handler. rewrite no_global_response. reflexivity.
Qed.

(** Whatever the [try] block throws, the [catch] clause logs it and throws
    in turn. *)
Lemma catch_block_throws (event : value) (e : Error) (t : list effect) :
  catch_block rt (handler_scope rt event) e t =
    (Throw response_is_not_defined, t ++ [ConsoleDebug (VError e)]).
Proof.
  run_handler. rewrite no_global_response. reflexivity.
Qed.

Lemma handler_try_throws (event : value) (e : Error) (t t' : list effect) :
  try_block rt (handler_scope rt event) t = (Throw e, t') ->
  handler rt event t = (Throw response_is_not_defined, t' ++ [ConsoleDebug (VError e)]).
Proof.
  intros H. unfold handler, try_catch. rewrite H. apply catch_block_throws.
Qed.

Lemma try_block_upstream_failure (event body : value) (r : Response)
    (t : list effect) :
  Get event "httpMethod" = Normal (VString "POST") ->
  Get event "body" = Normal body ->
  fetch rt (env_var rt "INFURA_ENDPOINT") (fetch_init body) = Normal r ->
  ok r = false ->
  try_block rt (handler_scope rt event) t =
    (Throw response_is_not_defined,
     t ++ [Fetch (env_var rt "INFURA_ENDPOINT") (fetch_init body)]).
Proof.
  intros Hm Hb Hf Hok.
  run_handler. rewrite Hm. cbn. rewrite Hb. cbn.
  unfold fetch_init in Hf. rewrite Hf. cbn. rewrite Hok. cbn.
  rewrite no_global_response. reflexivity.
Qed.

End Unbound.

(** C5. With no global [response], every call of [errorResponse] raises
    the ReferenceError: the upstream-rejection branch does, and the [catch]
    clause, entered for it and for every other exception of the [try]
    block, raises it again, out of the handler. No error response is ever
    returned. *)
Theorem errorResponse_raises_ReferenceError (rt : Runtime) :
  globalThis rt !! "response" = None ->
  (forall event message t,
      errorResponse rt (handler_scope rt event) message t =
        (Throw response_is_not_defined, t))
  /\ (forall event body r t,
      Get event "httpMethod" = Normal (VString "POST") ->
      Get event "body" = Normal body ->
      fetch rt (env_var rt "INFURA_ENDPOINT") (fetch_init body) = Normal r ->
      ok r = false ->
      handler rt event t =
        (Throw response_is_not_defined,
         t ++ [Fetch (env_var rt "INFURA_ENDPOINT") (fetch_init body);
               ConsoleDebug (VError response_is_not_defined)]))
  /\ (forall event e t t',
      try_block rt (handler_scope rt event) t = (Throw e, t') ->
      handler rt event t =
        (Throw response_is_not_defined, t' ++ [ConsoleDebug (VError e)])).
Proof.
  intros Hg. split; [|split].
  - intros. apply errorResponse_throws. exact Hg.
  - intros event body r t Hm Hb Hf Hok.
    rewrite (handler_try_throws rt Hg event response_is_not_defined t
               (t ++ [Fetch (env_var rt "INFURA_ENDPOINT") (fetch_init body)])).
    + rewrite <- app_assoc. reflexivity.
    + exact (try_block_upstream_failure rt Hg event body r t Hm Hb Hf Hok).
  - intros. apply handler_try_throws; assumption.
Qed.

(** ** Every path of the handler *)

(** Case analysis on the innermost scrutinee, until none is left. *)
Ltac case_split_in H :=
  repeat match type of H with
         | context [match ?x with _ => _ end] =>
             lazymatch x with
             | context [match _ with _ => _ end] => fail
             | _ => destruct x eqn:?; cbn in H
             end
         end.

Ltac case_split :=
  repeat match goal with
         | |- context [match ?x with _ => _ end] =>
             lazymatch x with
             | context [match _ with _ => _ end] => fail
             | _ => destruct x eqn:?; cbn
             end
         end.

(** C8. Every object the handler returns has, among its headers,
    Access-Control-Allow-Credentials: true and Access-Control-Allow-Origin
    with the configured origin, or the wildcard when none is configured. *)
Theorem handler_response_has_CORS_headers (rt : Runtime) (event resp : value)
    (t t' : list effect) :
  handler rt event t = (Normal resp, t') ->
  exists headers,
    field "headers" resp = Some (VObject headers)
    /\ lookup_prop "Access-Control-Allow-Credentials" headers = Some (VString "true")
    /\ lookup_prop "Access-Control-Allow-Origin" headers = Some (VString (allow_origin rt)).
Proof.
  intros H. revert H. run_handler. rewrite nullish_allow_origin. intros H.
  case_split_in H; inversion H; subst; cbn; eexists; split; try reflexivity;
    cbn; split; reflexivity.
Qed.

Lemma Get_total (v x : value) (k k' : string) :
  Get v k = Normal x -> exists y, Get v k' = Normal y.
Proof.
  destruct v; cbn; try discriminate; intros _; try (eexists; reflexivity).
  - repeat match goal with
           | |- context [if ?b then _ else _] => destruct b
           end; eexists; reflexivity.
  - repeat match goal with
           | |- context [if ?b then _ else _] => destruct b
           end; eexists; reflexivity.
Qed.

(** C9. For a POST request the handler calls [fetch] exactly once, whatever
    follows: on the configured endpoint, with method POST, the header
    Content-Type: application/json and, as body, the value of [event.body]
    as it is. *)
Theorem handler_POST_one_fetch (rt : Runtime) (event : value) (endpoint : string) :
  Get event "httpMethod" = Normal (VString "POST") ->
  process_env rt !! "INFURA_ENDPOINT" = Some endpoint ->
  exists body,
    Get event "body" = Normal body
    /\ fetch_calls (effects rt event) =
         [(VString endpoint,
           VObject [("method", VString "POST");
                    ("headers", VObject [("Content-Type", VString "application/json")]);
                    ("body", body)])].
Proof.
  intros Hm He.
  destruct (Get_total event _ "httpMethod" "body" Hm) as [body Hb].
  exists body. split; [exact Hb|].
  unfold effects, env_var. run_handler. unfold env_var.
  rewrite Hm, Hb, He. cbn.
  case_split; reflexivity.
Qed.

(** C10, as amended. The settled promise does not depend on the configured
    endpoint when the upstream answers alike; and, with no global
    [response], a returned object is the preflight answer, the 405 answer,
    or the relay of the upstream's status and parsed payload: its fields
    are constants of the program, the allowed origin, the upstream status
    and the serialisation of the upstream payload. *)
Theorem endpoint_noninterference (rt : Runtime) (e1 e2 : string) (event : value) :
  (forall init, fetch rt (VString e1) init = fetch rt (VString e2) init) ->
  outcome (with_endpoint e1 rt) event = outcome (with_endpoint e2 rt) event
  /\ (globalThis rt !! "response" = None ->
      forall resp, outcome (with_endpoint e1 rt) event = Normal resp ->
        resp = response_object (VString "")
                 ([("Access-Control-Allow-Headers", VString "Authorization,Content-type");
                   ("Access-Control-Allow-Methods", VString "OPTIONS,POST")]
                  ++ commonHeaders rt)
                 (VNumber 200)
        \/ resp = response_object (VString "") (commonHeaders rt) (VNumber 405)
        \/ exists body r s B,
             fetch rt (VString e1) (fetch_init body) = Normal r
             /\ text r = Normal s
             /\ JSON_parse rt s = Normal B
             /\ resp = response_object (JSON_stringify rt B)
                         (("Content-Type", VString "application/json") :: commonHeaders rt)
                         (VNumber (status r))).
Proof.
  intros Hf.
  assert (Hen : forall e, env_var (with_endpoint e rt) "INFURA_ENDPOINT" = VString e).
  { intros e. unfold env_var, with_endpoint. cbn. rewrite lookup_insert_eq. reflexivity. }
  assert (Hao : forall e, nullish (env_var (with_endpoint e rt) "ALLOW_ORIGIN") (VString "*")
                          = VString (allow_origin rt)).
  { intros e. rewrite nullish_allow_origin. unfold allow_origin, with_endpoint. cbn.
    rewrite lookup_insert_ne by discriminate. reflexivity. }
  split.
  - unfold outcome. run_handler. rewrite !Hen, !Hao.
    destruct (Get event "httpMethod") eqn:Hm; cbn; [|reflexivity].
    destruct (IsStrictlyEqual a (VString "OPTIONS")); cbn; [reflexivity|].
    destruct (IsStrictlyEqual a (VString "POST")); cbn; [|reflexivity].
    destruct (Get event "body"); cbn; [|reflexivity].
    rewrite Hf.
    case_split; reflexivity.
  - intros Hg resp. unfold outcome. run_handler. rewrite !Hen, !Hao, Hg. cbn.
    intros H. case_split_in H; inversion H; subst; auto.
    right. right. unfold fetch_init. eauto 10.
Qed.

(** X11. With no global [response], the promise is fulfilled with one of
    three objects (the preflight answer, the 405 answer, the relay of a
    success) or rejected with the ReferenceError: no other error leaves
    the handler, and no error response does. *)
Lemma handler_outcomes (rt : Runtime) (event : value) :
  globalThis rt !! "response" = None ->
  outcome rt event = Throw response_is_not_defined
  \/ outcome rt event =
       Normal (response_object (VString "")
                 ([("Access-Control-Allow-Headers", VString "Authorization,Content-type");
                   ("Access-Control-Allow-Methods", VString "OPTIONS,POST")]
                  ++ commonHeaders rt)
                 (VNumber 200))
  \/ outcome rt event =
       Normal (response_object (VString "") (commonHeaders rt) (VNumber 405))
  \/ exists body r s B,
       fetch rt (env_var rt "INFURA_ENDPOINT") (fetch_init body) = Normal r
       /\ ok r = true
       /\ text r = Normal s
       /\ JSON_parse rt s = Normal B
       /\ outcome rt event =
            Normal (response_object (JSON_stringify rt B)
                      (("Content-Type", VString "application/json") :: commonHeaders rt)
                      (VNumber (status r))).
Proof.
  intros Hg. unfold outcome. run_handler. rewrite nullish_allow_origin, Hg. cbn.
  case_split; auto.
  do 3 right.
  match goal with
  | H : negb (ok _) = false |- _ => apply negb_false_iff in H
  end.
  unfold fetch_init. eauto 10.
Qed.

(** ** The handler on concrete invocations *)

Import Examples.

(** C2. The upstream answers 401 Unauthorized to a POST request: the
    promise is rejected with the ReferenceError, after one upstream call
    and one diagnostic line for the same error raised first inside the
    [try] block; the response with status 401 and the error payload is not
    returned. *)
Theorem handler_upstream_401_rejects :
  let rt := Node.runtime env upstream_401 in
  handler rt post_event [] =
    (Throw response_is_not_defined,
     [Fetch (VString endpoint) (fetch_init (VString request_text));
      ConsoleDebug (VError response_is_not_defined)])
  /\ outcome rt post_event <>
       Normal (response_object (JSON_stringify rt (ErrorPayload "Unauthorized"))
                 (("Content-Type", VString "application/json") :: commonHeaders rt)
                 (VNumber 401)).
Proof.
  split.
  - vm_compute. reflexivity.
  - vm_compute. discriminate.
Qed.

(** C3. The upstream call fails with TypeError: fetch failed. The handler
    logs that error and is then rejected with the ReferenceError; no error
    payload carrying the message of the TypeError is returned. *)
Theorem handler_fetch_failure_rejects :
  let rt := Node.runtime env upstream_down in
  handler rt post_event [] =
    (Throw response_is_not_defined,
     [Fetch (VString endpoint) (fetch_init (VString request_text));
      ConsoleDebug (VError (TypeError "fetch failed"))])
  /\ forall resp, outcome rt post_event <> Normal resp.
Proof.
  split.
  - vm_compute. reflexivity.
  - intros resp. vm_compute. discriminate.
Qed.

(** C4. Two invocations whose promise is rejected instead of fulfilled
    with a response: the event [null], and a POST request whose upstream
    answers 200 with a body that is no JSON text. *)
Theorem handler_rejects :
  outcome (Node.runtime env upstream_200) VNull = Throw response_is_not_defined
  /\ outcome (Node.runtime env upstream_html) post_event = Throw response_is_not_defined.
Proof.
  split; vm_compute; reflexivity.
Qed.


(** C10, the claim as stated fails: the upstream quotes the endpoint in its
    payload and the relayed body contains it. *)
Lemma relayed_body_contains_endpoint :
  exists resp b,
    outcome (Node.runtime env upstream_echo) post_event = Normal resp
    /\ field "body" resp = Some (VString b)
    /\ contains endpoint b = true.
Proof.
  eexists. eexists. split; [vm_compute; reflexivity|].
  split; [vm_compute; reflexivity|].
  vm_compute. reflexivity.
Qed.

(** ** The theorems at concrete invocations *)

Lemma handler_OPTIONS_witness :
  Get options_event "httpMethod" = Normal (VString "OPTIONS")
  /\ handler (Node.runtime env upstream_200) options_event [] =
       (Normal (response_object (VString "")
                  [("Access-Control-Allow-Headers", VString "Authorization,Content-type");
                   ("Access-Control-Allow-Methods", VString "OPTIONS,POST");
                   ("Access-Control-Allow-Credentials", VString "true");
                   ("Access-Control-Allow-Origin", VString "https://app.example.org")]
                  (VNumber 200)), []).
Proof.
  split; [reflexivity|].
  exact (handler_OPTIONS (Node.runtime env upstream_200) options_event []
           eq_refl).
Defined.

Lemma handler_method_not_allowed_witness :
  Get get_event "httpMethod" = Normal (VString "GET")
  /\ handler (Node.runtime [] upstream_200) get_event [] =
       (Normal (response_object (VString "")
                  [("Access-Control-Allow-Credentials", VString "true");
                   ("Access-Control-Allow-Origin", VString "*")]
                  (VNumber 405)), []).
Proof.
  split; [reflexivity|].
  apply (handler_method_not_allowed (Node.runtime [] upstream_200) get_event
           (VString "GET") []); [reflexivity | discriminate | discriminate].
Defined.


Lemma errorResponse_raises_ReferenceError_witness :
  let rt := Node.runtime env upstream_401 in
  globalThis rt !! "response" = None
  /\ ok response_401 = false
  /\ errorResponse rt (handler_scope rt post_event) (VString "Unauthorized") [] =
       (Throw response_is_not_defined, [])
  /\ handler rt post_event [] =
       (Throw response_is_not_defined,
        [Fetch (VString endpoint) (fetch_init (VString request_text));
         ConsoleDebug (VError response_is_not_defined)]).
Proof.
  intros rt.
  assert (Hg : globalThis rt !! "response" = None) by reflexivity.
  split; [exact Hg|]. split; [reflexivity|].
  destruct (errorResponse_raises_ReferenceError rt Hg) as [H1 [H2 _]].
  split.
  - apply H1.
  - apply (H2 post_event (VString request_text) response_401 []); reflexivity.
Defined.

Lemma handler_response_has_CORS_headers_witness :
  let rt := Node.runtime env upstream_200 in
  exists resp headers,
    handler rt post_event [] =
      (Normal resp, [Fetch (VString endpoint) (fetch_init (VString request_text))])
    /\ field "headers" resp = Some (VObject headers)
    /\ lookup_prop "Access-Control-Allow-Credentials" headers = Some (VString "true")
    /\ lookup_prop "Access-Control-Allow-Origin" headers
       = Some (VString "https://app.example.org").
Proof.
  intros rt.
  assert (H : handler rt post_event [] =
              (Normal (response_object (JSON_stringify rt result_payload)
                         (("Content-Type", VString "application/json") :: commonHeaders rt)
                         (VNumber 200)),
               [Fetch (VString endpoint) (fetch_init (VString request_text))]))
    by (vm_compute; reflexivity).
  destruct (handler_response_has_CORS_headers rt post_event _ _ _ H)
    as [headers [H1 [H2 H3]]].
  eexists. exists headers. split; [exact H|]. split; [exact H1|].
  split; [exact H2 | exact H3].
Defined.

Lemma handler_POST_one_fetch_witness :
  let rt := Node.runtime env upstream_down in
  Get post_event "httpMethod" = Normal (VString "POST")
  /\ exists body,
       Get post_event "body" = Normal body
       /\ fetch_calls (effects rt post_event) =
            [(VString endpoint,
              VObject [("method", VString "POST");
                       ("headers", VObject [("Content-Type", VString "application/json")]);
                       ("body", body)])].
Proof.
  intros rt. split; [reflexivity|].
  apply (handler_POST_one_fetch rt post_event endpoint); reflexivity.
Defined.

Lemma endpoint_noninterference_witness :
  let rt := Node.runtime env upstream_200 in
  outcome (with_endpoint endpoint rt) post_event
  = outcome (with_endpoint "https://sepolia.infura.io/v3/fedcba9876543210" rt) post_event.
Proof.
  intros rt.
  apply (endpoint_noninterference rt endpoint
           "https://sepolia.infura.io/v3/fedcba9876543210" post_event).
  intros init. reflexivity.
Defined.

(** * Further properties of the handler *)

(** ** What the handler reads and calls *)

(** X1. The handler reads two fields of the event, httpMethod and body:
    two events that agree on them settle alike with the same effects,
    whatever their headers, path or other fields. *)
Theorem handler_reads_httpMethod_and_body (rt : Runtime) (e1 e2 : value)
    (t : list effect) :
  Get e1 "httpMethod" = Get e2 "httpMethod" ->
  Get e1 "body" = Get e2 "body" ->
  handler rt e1 t = handler rt e2 t.
Proof.
  intros Hm Hb. run_handler. rewrite Hm, Hb. reflexivity.
Qed.

Lemma handler_reads_httpMethod_and_body_witness :
  Get gateway_event "httpMethod" = Get post_event "httpMethod"
  /\ Get gateway_event "body" = Get post_event "body"
  /\ handler (Node.runtime env upstream_200) gateway_event []
     = handler (Node.runtime env upstream_200) post_event [].
Proof.
  split; [reflexivity|]. split; [reflexivity|].
  apply (handler_reads_httpMethod_and_body (Node.runtime env upstream_200)
           gateway_event post_event []); reflexivity.
Defined.

(** X2. The handler calls [fetch] at most once, and only for a POST
    request: for any other event, the event null included, it makes no
    upstream call; for a POST request the call goes to whatever
    INFURA_ENDPOINT holds, undefined when the variable is unset. *)
Theorem handler_fetch_calls (rt : Runtime) (event : value) :
  (Get event "httpMethod" <> Normal (VString "POST") ->
   fetch_calls (effects rt event) = [])
  /\ (Get event "httpMethod" = Normal (VString "POST") ->
      exists body,
        Get event "body" = Normal body
        /\ fetch_calls (effects rt event) =
             [(env_var rt "INFURA_ENDPOINT", fetch_init body)]).
Proof.
  split.
  - intros Hm. unfold effects. run_handler.
    destruct (Get event "httpMethod") as [m|e] eqn:E; cbn.
    + destruct (IsStrictlyEqual m (VString "OPTIONS")); cbn; [reflexivity|].
      destruct (IsStrictlyEqual m (VString "POST")) eqn:Ep; cbn; [|reflexivity].
      apply IsStrictlyEqual_string in Ep. subst. contradiction.
    + case_split; reflexivity.
  - intros Hm.
    destruct (Get_total event _ "httpMethod" "body" Hm) as [body Hb].
    exists body. split; [exact Hb|].
    unfold effects. run_handler. rewrite Hm, Hb. cbn.
    case_split; reflexivity.
Qed.

Lemma handler_fetch_calls_witness :
  Get VNull "httpMethod" <> Normal (VString "POST")
  /\ fetch_calls (effects (Node.runtime env upstream_200) VNull) = []
  /\ fetch_calls (effects (Node.runtime [] upstream_down) post_event)
     = [(VUndefined, fetch_init (VString request_text))].
Proof.
  split; [discriminate|]. split.
  - apply (proj1 (handler_fetch_calls (Node.runtime env upstream_200) VNull)).
    discriminate.
  - destruct (proj2 (handler_fetch_calls (Node.runtime [] upstream_down) post_event)
                eq_refl) as (body & Hb & H).
    injection Hb as <-. exact H.
Defined.

(** ** How failures end *)

(** X3. A POST request whose upstream call is rejected with error e, or
    resolves with a success status and a body that cannot be read or
    parsed (error e): the handler logs e with [console.debug] and the
    promise is rejected with the ReferenceError; neither e nor its message
    reaches the caller. *)
Theorem handler_POST_exception (rt : Runtime) (event body : value) (e : Error)
    (t : list effect) :
  globalThis rt !! "response" = None ->
  Get event "httpMethod" = Normal (VString "POST") ->
  Get event "body" = Normal body ->
  (fetch rt (env_var rt "INFURA_ENDPOINT") (fetch_init body) = Throw e
   \/ exists r,
        fetch rt (env_var rt "INFURA_ENDPOINT") (fetch_init body) = Normal r
        /\ ok r = true
        /\ (text r = Throw e
            \/ exists s, text r = Normal s /\ JSON_parse rt s = Throw e)) ->
  handler rt event t =
    (Throw response_is_not_defined,
     t ++ [Fetch (env_var rt "INFURA_ENDPOINT") (fetch_init body);
           ConsoleDebug (VError e)]).
Proof.
  intros Hg Hm Hb H. run_handler. rewrite Hm. cbn. rewrite Hb. cbn.
  unfold fetch_init in H.
  destruct H as [Hf | (r & Hf & Hok & [Ht | (s & Ht & Hp)])]; rewrite Hf; cbn.
  - rewrite Hg. cbn. rewrite <- app_assoc. reflexivity.
  - rewrite Hok. cbn. rewrite Ht. cbn. rewrite Hg. cbn.
    rewrite <- app_assoc. reflexivity.
  - rewrite Hok. cbn. rewrite Ht, Hp. cbn. rewrite Hg. cbn.
    rewrite <- app_assoc. reflexivity.
Qed.

Lemma handler_POST_exception_witness :
  let rt := Node.runtime env upstream_html in
  globalThis rt !! "response" = None
  /\ JSON_parse rt "<html>Bad gateway</html>"
     = Throw (SyntaxError "Unexpected token in JSON")
  /\ handler rt post_event [] =
       (Throw response_is_not_defined,
        [Fetch (VString endpoint) (fetch_init (VString request_text));
         ConsoleDebug (VError (SyntaxError "Unexpected token in JSON"))]).
Proof.
  intros rt. split; [reflexivity|]. split; [vm_compute; reflexivity|].
  apply (handler_POST_exception rt post_event (VString request_text)
           (SyntaxError "Unexpected token in JSON") []).
  - reflexivity.
  - reflexivity.
  - reflexivity.
  - right. exists (mkResponse 200 "OK" (Normal "<html>Bad gateway</html>")).
    split; [reflexivity|]. split; [reflexivity|].
    right. exists "<html>Bad gateway</html>". split; [reflexivity|].
    vm_compute. reflexivity.
Defined.

(** X4. The event null or undefined: reading its httpMethod raises a
    TypeError inside the [try] block; the handler logs it, makes no
    upstream call, and the promise is rejected with the ReferenceError. *)
Theorem handler_nullish_event (rt : Runtime) (event : value) (t : list effect) :
  globalThis rt !! "response" = None ->
  event = VNull \/ event = VUndefined ->
  exists msg,
    handler rt event t =
      (Throw response_is_not_defined, t ++ [ConsoleDebug (VError (TypeError msg))]).
Proof.
  intros Hg [-> | ->]; eexists; run_handler; rewrite Hg; reflexivity.
Qed.

Lemma handler_nullish_event_witness :
  let rt := Node.runtime env upstream_200 in
  globalThis rt !! "response" = None
  /\ exists msg,
       handler rt VUndefined [] =
         (Throw response_is_not_defined, [ConsoleDebug (VError (TypeError msg))]).
Proof.
  intros rt. split; [reflexivity|].
  apply (handler_nullish_event rt VUndefined []); [reflexivity | right; reflexivity].
Defined.

(** X5. [console.debug] is called exactly once when the promise is
    rejected, with an error object, and never when it is fulfilled. *)
Theorem handler_debug_calls (rt : Runtime) (event : value) :
  globalThis rt !! "response" = None ->
  match outcome rt event with
  | Normal _ => debug_calls (effects rt event) = []
  | Throw _ => exists e, debug_calls (effects rt event) = [VError e]
  end.
Proof.
  intros Hg. unfold outcome, effects. run_handler. rewrite Hg. cbn.
  case_split; try reflexivity; eexists; reflexivity.
Qed.

Lemma handler_debug_calls_witness :
  let rt := Node.runtime env upstream_401 in
  globalThis rt !! "response" = None
  /\ outcome rt post_event = Throw response_is_not_defined
  /\ exists e, debug_calls (effects rt post_event) = [VError e].
Proof.
  intros rt. split; [reflexivity|]. split; [vm_compute; reflexivity|].
  exact (handler_debug_calls rt post_event eq_refl).
Defined.

(** X6. The status text of the upstream response never shows: with
    another status text, the handler settles alike with the same effects.
    On a non-success status the text is passed to [errorResponse], which
    fails before returning it. *)
Theorem handler_ignores_statusText (rt : Runtime) (statusText : string)
    (event : value) (t : list effect) :
  globalThis rt !! "response" = None ->
  handler (with_statusText statusText rt) event t = handler rt event t.
Proof.
  intros Hg. run_handler. rewrite Hg. cbn.
  destruct (Get event "httpMethod"); cbn; [|reflexivity].
  destruct (IsStrictlyEqual a (VString "OPTIONS")); cbn; [reflexivity|].
  destruct (IsStrictlyEqual a (VString "POST")); cbn; [|reflexivity].
  destruct (Get event "body"); cbn; [|reflexivity].
  destruct (fetch rt _ _) as [r|e]; cbn; [|reflexivity].
  change (ok (mkResponse (status r) statusText (text r))) with (ok r).
  destruct (ok r); cbn; reflexivity.
Qed.

Lemma handler_ignores_statusText_witness :
  let rt := Node.runtime env upstream_401 in
  globalThis rt !! "response" = None
  /\ handler (with_statusText "Too Many Requests" rt) post_event []
     = handler rt post_event [].
Proof.
  intros rt. split; [reflexivity|].
  apply (handler_ignores_statusText rt "Too Many Requests" post_event []).
  reflexivity.
Defined.

(** ** What is returned *)

(** X7. The status code of a returned object is 405 or within 200-299: a
    non-success status of the upstream is never returned. *)
Theorem handler_status_codes (rt : Runtime) (event resp : value)
    (t t' : list effect) :
  globalThis rt !! "response" = None ->
  handler rt event t = (Normal resp, t') ->
  exists n, field "statusCode" resp = Some (VNumber n)
            /\ (n = 405 \/ 200 <= n <= 299).
Proof.
  intros Hg. run_handler. rewrite Hg. cbn. intros H.
  case_split_in H; inversion H; subst; cbn; eexists; (split; [reflexivity|]).
  - right. lia.
  - left. reflexivity.
  - right.
    match goal with
    | Hok : negb (ok ?r) = false |- _ =>
        apply negb_false_iff in Hok; unfold ok in Hok;
        apply andb_prop in Hok as [H1 H2]
    end.
    apply Z.leb_le in H1. apply Z.leb_le in H2. lia.
Qed.

Lemma handler_status_codes_witness :
  let rt := Node.runtime env upstream_200 in
  globalThis rt !! "response" = None
  /\ exists resp n,
       outcome rt get_event = Normal resp
       /\ field "statusCode" resp = Some (VNumber n)
       /\ (n = 405 \/ 200 <= n <= 299).
Proof.
  intros rt. split; [reflexivity|].
  assert (H : handler rt get_event [] =
              (Normal (response_object (VString "") (commonHeaders rt) (VNumber 405)), []))
    by (vm_compute; reflexivity).
  destruct (handler_status_codes rt get_event _ [] [] eq_refl H) as (n & Hn & Hr).
  eexists. exists n. split; [unfold outcome; rewrite H; reflexivity|].
  split; [exact Hn | exact Hr].
Defined.

(** X8. Every returned object has isBase64Encoded false. *)
Theorem handler_never_base64 (rt : Runtime) (event resp : value)
    (t t' : list effect) :
  handler rt event t = (Normal resp, t') ->
  field "isBase64Encoded" resp = Some (VBool false).
Proof.
  run_handler. intros H.
  case_split_in H; inversion H; subst; reflexivity.
Qed.

Lemma handler_never_base64_witness :
  exists resp,
    outcome (Node.runtime env upstream_200) post_event = Normal resp
    /\ field "isBase64Encoded" resp = Some (VBool false).
Proof.
  assert (H : handler (Node.runtime env upstream_200) post_event [] =
              (Normal (response_object (Node.stringify result_payload)
                         (("Content-Type", VString "application/json")
                          :: commonHeaders (Node.runtime env upstream_200))
                         (VNumber 200)),
               [Fetch (VString endpoint) (fetch_init (VString request_text))]))
    by (vm_compute; reflexivity).
  eexists. split; [unfold outcome; rewrite H; reflexivity|].
  exact (handler_never_base64 _ _ _ _ _ H).
Defined.

(** X9. In a runtime whose JSON.stringify loses nothing of what JSON.parse
    returns, the body of a returned object is the empty string or a text
    that parses as JSON. *)
Theorem handler_body_empty_or_JSON (rt : Runtime) (event resp : value)
    (t t' : list effect) :
  JSON_lossless rt ->
  globalThis rt !! "response" = None ->
  handler rt event t = (Normal resp, t') ->
  field "body" resp = Some (VString "")
  \/ exists b B, field "body" resp = Some b /\ parses_to rt b B.
Proof.
  intros Hl Hg. run_handler. rewrite Hg. cbn. intros H.
  case_split_in H; inversion H; subst; cbn; auto.
  right. eexists. eexists. split; [reflexivity|]. eapply Hl. eassumption.
Qed.

Lemma handler_body_empty_or_JSON_witness :
  let rt := Node.runtime env upstream_200 in
  globalThis rt !! "response" = None
  /\ exists resp,
       outcome rt post_event = Normal resp
       /\ (field "body" resp = Some (VString "")
           \/ exists b B, field "body" resp = Some b /\ parses_to rt b B).
Proof.
  intros rt. split; [reflexivity|].
  assert (H : handler rt post_event [] =
              (Normal (response_object (Node.stringify result_payload)
                         (("Content-Type", VString "application/json") :: commonHeaders rt)
                         (VNumber 200)),
               [Fetch (VString endpoint) (fetch_init (VString request_text))]))
    by (vm_compute; reflexivity).
  eexists. split; [unfold outcome; rewrite H; reflexivity|].
  exact (handler_body_empty_or_JSON rt post_event _ _ _
           (Node_JSON_lossless env upstream_200) eq_refl H).
Defined.

(** X10. What [errorResponse] builds: where the global object does have a
    property [response], the call returns the payload with the message
    under error.message, the headers Content-Type: application/json and
    the two CORS headers, and as status code the [status] of that global,
    not the status of the upstream response. *)
Theorem errorResponse_with_global_response (rt : Runtime) (g statusCode : value)
    (event message : value) (t : list effect) :
  globalThis rt !! "response" = Some g ->
  Get g "status" = Normal statusCode ->
  errorResponse rt (handler_scope rt event) message t =
    (Normal (response_object
               (JSON_stringify rt (VObject [("error", VObject [("message", message)])]))
               (("Content-Type", VString "application/json") :: commonHeaders rt)
               statusCode), t).
Proof.
  intros Hg Hs. run_handler. rewrite Hg. cbn. rewrite Hs. cbn.
  rewrite nullish_allow_origin. reflexivity.
Qed.

Lemma errorResponse_with_global_response_witness :
  let rt := runtime_with_global_response in
  globalThis rt !! "response" = Some (VObject [("status", VNumber 502)])
  /\ outcome rt post_event =
       Normal (response_object
                 (VString (Node.json_text "{'error':{'message':'Unauthorized'}}"))
                 [("Content-Type", VString "application/json");
                  ("Access-Control-Allow-Credentials", VString "true");
                  ("Access-Control-Allow-Origin", VString "https://app.example.org")]
                 (VNumber 502)).
Proof.
  intros rt.
  assert (Hg : globalThis rt !! "response" = Some (VObject [("status", VNumber 502)]))
    by reflexivity.
  split; [exact Hg|].
  pose proof (errorResponse_with_global_response rt _ (VNumber 502) post_event
                (VString "Unauthorized")
                [Fetch (VString endpoint) (fetch_init (VString request_text))]
                Hg eq_refl) as H.
  unfold outcome, handler, try_catch.
  replace (try_block rt (handler_scope rt post_event) [])
    with (errorResponse rt (handler_scope rt post_event) (VString "Unauthorized")
            [Fetch (VString endpoint) (fetch_init (VString request_text))])
    by (vm_compute; reflexivity).
  rewrite H. vm_compute. reflexivity.
Defined.

Lemma handler_outcomes_witness :
  let rt := Node.runtime env upstream_html in
  globalThis rt !! "response" = None
  /\ (outcome rt post_event = Throw response_is_not_defined
      \/ exists resp, outcome rt post_event = Normal resp).
Proof.
  intros rt. split; [reflexivity|].
  destruct (handler_outcomes rt post_event eq_refl)
    as [H | [H | [H | (body & r & s & B & _ & _ & _ & _ & H)]]];
    [left; exact H | right; eexists; exact H ..].
Defined.

(** X12. An event that is neither null nor undefined and has no httpMethod
    is answered like any method other than OPTIONS and POST: status 405,
    empty body, the two CORS headers, no effect. *)
Theorem handler_missing_httpMethod (rt : Runtime) (event : value)
    (t : list effect) :
  event <> VNull ->
  event <> VUndefined ->
  (forall props, event = VObject props -> lookup_prop "httpMethod" props = None) ->
  handler rt event t =
    (Normal (response_object (VString "") (commonHeaders rt) (VNumber 405)), t).
Proof.
  intros Hn Hu Hp.
  assert (Hm : Get event "httpMethod" = Normal VUndefined).
  { destruct event; try reflexivity; try contradiction.
    cbn. rewrite (Hp props eq_refl). reflexivity. }
  run_handler. rewrite Hm. cbn.
  rewrite nullish_allow_origin. reflexivity.
Qed.

Lemma handler_missing_httpMethod_witness :
  handler (Node.runtime [] upstream_200) bare_event [] =
    (Normal (response_object (VString "")
               [("Access-Control-Allow-Credentials", VString "true");
                ("Access-Control-Allow-Origin", VString "*")]
               (VNumber 405)), []).
Proof.
  apply (handler_missing_httpMethod (Node.runtime [] upstream_200) bare_event []).
  - discriminate.
  - discriminate.
  - intros props [= <-]. reflexivity.
Defined.

(** X13. The allowed origin shows in the headers of the returned object
    and nowhere else: with another origin configured, or none, the effects
    (the upstream call, the log) are the same, and the promise settles
    alike up to the headers. *)
Theorem handler_origin_only_in_headers (rt : Runtime) (o1 o2 : option string)
    (event : value) :
  effects (with_origin o1 rt) event = effects (with_origin o2 rt) event
  /\ same_but_headers (outcome (with_origin o1 rt) event)
                      (outcome (with_origin o2 rt) event).
Proof.
  assert (He : forall o, env_var (with_origin o rt) "INFURA_ENDPOINT"
                         = env_var rt "INFURA_ENDPOINT").
  { intros [o|]; unfold env_var, with_origin; cbn.
    - rewrite lookup_insert_ne by discriminate. reflexivity.
    - rewrite lookup_delete_ne by discriminate. reflexivity. }
  unfold effects, outcome, same_but_headers. run_handler. rewrite !He.
  case_split; auto.
Qed.

(** X14. Relaying is idempotent. In a runtime whose JSON.stringify loses
    nothing of what JSON.parse returns, the body the handler gives back
    for a success is a text b such that, had the upstream sent b itself
    with the same status, the handler would give back the same response:
    a second pass through the handler changes nothing. *)
Theorem handler_relay_idempotent (rt : Runtime) (event body : value)
    (r : Response) (s : string) (B : value) :
  JSON_lossless rt ->
  Get event "httpMethod" = Normal (VString "POST") ->
  Get event "body" = Normal body ->
  fetch rt (env_var rt "INFURA_ENDPOINT") (fetch_init body) = Normal r ->
  ok r = true ->
  text r = Normal s ->
  JSON_parse rt s = Normal B ->
  exists resp b,
    outcome rt event = Normal resp
    /\ field "body" resp = Some (VString b)
    /\ outcome (with_upstream
                  (fun _ _ => Normal (mkResponse (status r) (statusText r) (Normal b)))
                  rt) event
       = Normal resp.
Proof.
  intros Hl Hm Hb Hf Hok Ht Hp.
  destruct (Hl s B Hp) as (b & Hs & Hpb).
  exists (response_object (VString b)
            (("Content-Type", VString "application/json") :: commonHeaders rt)
            (VNumber (status r))), b.
  unfold fetch_init in Hf.
  split; [|split; [reflexivity|]].
  - unfold outcome. run_handler. rewrite Hm. cbn. rewrite Hb. cbn.
    rewrite Hf. cbn. rewrite Hok. cbn. rewrite Ht, Hp. cbn.
    rewrite Hs, nullish_allow_origin. reflexivity.
  - unfold outcome. run_handler. rewrite Hm. cbn. rewrite Hb. cbn.
    change (ok (mkResponse (status r) (statusText r) (Normal b))) with (ok r).
    rewrite Hok. cbn. rewrite Hpb. cbn.
    rewrite Hs, nullish_allow_origin. reflexivity.
Qed.

Lemma handler_relay_idempotent_witness :
  let rt := Node.runtime env upstream_200 in
  ok response_200 = true
  /\ exists resp b',
       outcome rt post_event = Normal resp
       /\ field "body" resp = Some (VString b')
       /\ outcome (with_upstream (fun _ _ => Normal (mkResponse 200 "OK" (Normal b'))) rt)
            post_event
          = Normal resp.
Proof.
  intros rt. split; [reflexivity|].
  apply (handler_relay_idempotent rt post_event (VString request_text)
           response_200 result_text result_payload).
  - apply Node_JSON_lossless.
  - reflexivity.
  - reflexivity.
  - reflexivity.
  - reflexivity.
  - reflexivity.
  - vm_compute. reflexivity.
Defined.

